(** * Resource binding (bind.go): a shallow embedding and its properties

    The development follows [BindCustom] of package xmpp.  The feature is a
    [StreamFeature] record of three closures ([List], [Parse], [Negotiate])
    that act on an XML encoder, an XML decoder and the session.  Go's
    mutable objects are modelled by explicit state passing: every operation
    takes the object and returns its result together with the updated
    object; a run-time panic is a result of its own. *)

From Stdlib Require Import String List ZArith Bool.
Import ListNotations.
Open Scope string_scope.
Open Scope list_scope.
Open Scope Z_scope.

(** ** encoding/xml: names and tokens *)

Module xml.

Record Name := { Space : string; Local : string }.

Record Attr := { AttrName : Name; Value : string }.

(** [xml.StartElement]: field [Name] is [SName] here, [Attr] is [SAttr]. *)
Record StartElement := { SName : Name; SAttr : list Attr }.

(** The token kinds of encoding/xml. *)
Inductive Token :=
| StartElementTok (s : StartElement)
| EndElement (n : Name)
| CharData (text : string)
| Comment (text : string)
| ProcInst (target inst : string)
| Directive (text : string).

(** [start.End()] *)
Definition End (s : StartElement) : Token := EndElement (SName s).

(** [==] on [xml.Name]: both strings equal. *)
Definition Name_eqb (a b : Name) : bool :=
  (Space a =? Space b)%string && (Local a =? Local b)%string.

End xml.

(** ** internal/ns: namespace constants *)

Module ns.

(** The value is the one written out in the struct tags of bind.go. *)
Definition Bind : string := "urn:ietf:params:xml:ns:xmpp-bind".

(** Modelled from the spec: the namespace of the response envelope, a
    constant of package internal/ns that is not among the sources; no
    result below depends on its value. *)
Definition Client : string := "jabber:client".

End ns.

(** ** stream: stream-level errors *)

Module stream.

(** Modelled from the spec: the two stream errors bind.go returns,
    [stream.BadFormat] (the spec's FormatError) and
    [stream.UndefinedCondition] (the spec's CorrelationError). *)
Inductive Error := BadFormat | UndefinedCondition.

End stream.

(** ** stanza: IQ envelopes and stanza errors *)

Module stanza.

(** Modelled from the spec: the request and response kinds of an IQ. *)
Inductive IQType := GetIQ | SetIQ | ResultIQ | ErrorIQ.

Definition IQType_eqb (a b : IQType) : bool :=
  match a, b with
  | GetIQ, GetIQ | SetIQ, SetIQ | ResultIQ, ResultIQ | ErrorIQ, ErrorIQ => true
  | _, _ => false
  end.

(** Modelled from the spec: the envelope fields bind.go reads and writes,
    the identifier and the kind. *)
Record IQ := { ID : string; Type_ : IQType }.

(** Modelled from the spec: the structured protocol-error detail; the
    condition is a string such as ["not-allowed"]. *)
Record Error := { ErrType : string; Condition : string; Text : string }.

Definition BadRequest : string := "bad-request".
Definition NotAllowed : string := "not-allowed".

(** [stanza.Error{Condition: c}]: the other fields keep their zero value. *)
Definition Error_of_Condition (c : string) : Error :=
  {| ErrType := ""; Condition := c; Text := "" |}.

End stanza.

(** ** Go's [error] values *)

Inductive error :=
| stream_error (e : stream.Error)
| stanza_error (e : stanza.Error)
| other_error (msg : string).
    (* I/O failures, XML syntax errors, address validation failures and the
       errors of a caller-supplied assignment function *)

(** ** jid: addresses *)

Module jid.

Record JID := { Localpart : string; Domainpart : string; Resourcepart : string }.

(** Modelled from the spec: the full string form of an address,
    [local@domain/resource] with empty parts (and their separators)
    left out. *)
Definition String (j : JID) : string :=
  ((if (Localpart j =? "")%string then "" else Localpart j ++ "@")
     ++ Domainpart j
     ++ (if (Resourcepart j =? "")%string then "" else "/" ++ Resourcepart j))%string.

Section New.

(** The structural validation of package jid, which is not among the
    sources: [Some e] rejects the three parts with error [e]. *)
Variable validate : string -> string -> string -> option error.

(** Modelled from the spec: [jid.New] builds the address from the three
    parts it is given and fails when they do not pass validation.  The
    result is Go's pair (pointer, error). *)
Definition New (localpart domainpart resourcepart : string)
  : option JID * option error :=
  match validate localpart domainpart resourcepart with
  | Some e => (None, Some e)
  | None =>
      (Some {| Localpart := localpart;
               Domainpart := domainpart;
               Resourcepart := resourcepart |}, None)
  end.

End New.

End jid.

(** ** internal: random identifiers *)

Module internal.

(** The process-wide random source behind [internal.RandomID]: the
    identifier handed out by the [n]-th call is [source n]. *)
Record Entropy := { drawn : nat; source : nat -> string }.

Definition RandomID (r : Entropy) : string * Entropy :=
  (source r (drawn r), {| drawn := S (drawn r); source := source r |}).

End internal.

(** ** The anonymous structs of bind.go *)

(** The request encoded by the initiating role (lines 103-119). *)
Record bindRequest := { req_IQ : stanza.IQ; req_Resource : string }.

(** The response decoded by the initiating role (lines 139-145); [Bind.JID]
    is a pointer and may be nil. *)
Record bindResponse := {
  resp_IQ : stanza.IQ;
  resp_Bind_JID : option jid.JID;
  resp_Err : stanza.Error
}.

(** ** The XML encoder *)

(** What has been handed to the encoder: single tokens, or a whole value
    through [Encode]. *)
Inductive Written :=
| WToken (t : xml.Token)
| WValue (v : bindRequest).

(** An [xml.Encoder] over the connection.  [buffered] holds what was encoded
    since the last flush, [wire] what has been flushed to the peer.  Every
    operation may fail (the writer is the network, and the encoder rejects
    ill-formed tokens): [faults] gives the outcome of the operations to come,
    one entry per operation, [None] for a success; once the list is used up
    every operation succeeds. *)
Record Encoder := {
  buffered : list Written;
  wire : list Written;
  faults : list (option error)
}.

Definition next_fault (e : Encoder) : option error := hd None (faults e).

(** [e.EncodeToken(t)] *)
Definition EncodeToken (e : Encoder) (t : xml.Token) : option error * Encoder :=
  match next_fault e with
  | Some err =>
      (Some err, {| buffered := buffered e; wire := wire e; faults := tl (faults e) |})
  | None =>
      (None, {| buffered := buffered e ++ [WToken t];
                wire := wire e;
                faults := tl (faults e) |})
  end.

(** [e.Flush()] *)
Definition Flush (e : Encoder) : option error * Encoder :=
  match next_fault e with
  | Some err =>
      (Some err, {| buffered := buffered e; wire := wire e; faults := tl (faults e) |})
  | None =>
      (None, {| buffered := []; wire := wire e ++ buffered e; faults := tl (faults e) |})
  end.

(** [e.Encode(v)]: marshals the value and flushes. *)
Definition Encode (e : Encoder) (v : bindRequest) : option error * Encoder :=
  match next_fault e with
  | Some err =>
      (Some err, {| buffered := buffered e; wire := wire e; faults := tl (faults e) |})
  | None =>
      (None, {| buffered := [];
                wire := wire e ++ buffered e ++ [WValue v];
                faults := tl (faults e) |})
  end.

(** ** The XML decoder *)

(** What [DecodeElement] makes of the rest of an element whose start tag has
    been read, for each of the two structs bind.go decodes into: the struct
    of [Parse] (only the error matters, the struct is dropped) and the
    response struct of [Negotiate]. *)
Record Content := {
  into_parsed : option error;
  into_response : bindResponse + error
}.

(** The input still to be read from the peer. *)
Inductive Item :=
| Tok (t : xml.Token)      (* the next token *)
| Elem (c : Content)       (* the remainder of the element just opened *)
| Broken (e : error).      (* a read or syntax error at this point *)

Record Decoder := { input : list Item }.

(** The error of a read that finds no input, or not the input it expects. *)
Definition EOF : error := other_error "EOF".
Definition unexpected : error := other_error "unexpected input".

(** [d.Token()] *)
Definition Token (d : Decoder) : (xml.Token + error) * Decoder :=
  match input d with
  | [] => (inr EOF, d)
  | Tok t :: rest => (inl t, {| input := rest |})
  | Elem _ :: rest => (inr unexpected, {| input := rest |})
  | Broken e :: rest => (inr e, {| input := rest |})
  end.

(** [d.DecodeElement(&parsed, start)] with the struct of [Parse]. *)
Definition DecodeElement_parsed (d : Decoder) (start : option xml.StartElement)
  : option error * Decoder :=
  match input d with
  | [] => (Some EOF, d)
  | Elem c :: rest => (into_parsed c, {| input := rest |})
  | Tok _ :: rest => (Some unexpected, {| input := rest |})
  | Broken e :: rest => (Some e, {| input := rest |})
  end.

(** [d.DecodeElement(&resp, &start)] with the response struct. *)
Definition DecodeElement_response (d : Decoder) (start : option xml.StartElement)
  : (bindResponse + error) * Decoder :=
  match input d with
  | [] => (inr EOF, d)
  | Elem c :: rest => (into_response c, {| input := rest |})
  | Tok _ :: rest => (inr unexpected, {| input := rest |})
  | Broken e :: rest => (inr e, {| input := rest |})
  end.

(** ** Session state flags and the session *)

Definition SessionState := Z.

(** Modelled from the spec: the milestone bits of a session, one bit each
    (encrypted, authenticated, ready, receiving role); the declaration of
    the constants is not among the sources. *)
Definition Secure : SessionState := 1.
Definition Authn : SessionState := 2.
Definition Ready : SessionState := 4.
Definition Received : SessionState := 8.

(** The session as bind.go uses it: [State()], [RemoteAddr()] (a pointer,
    possibly nil), [Config().Origin], the field [origin] that the initiating
    role assigns, [Encoder()] and [Decoder()].  The record also carries the
    random source, which in Go is global to the process. *)
Record Session := {
  State : SessionState;
  RemoteAddr : option jid.JID;
  Config_Origin : jid.JID;
  origin : option jid.JID;
  encoder : Encoder;
  decoder : Decoder;
  entropy : internal.Entropy
}.

Definition set_encoder (s : Session) (e : Encoder) : Session :=
  {| State := State s; RemoteAddr := RemoteAddr s; Config_Origin := Config_Origin s;
     origin := origin s; encoder := e; decoder := decoder s; entropy := entropy s |}.

Definition set_decoder (s : Session) (d : Decoder) : Session :=
  {| State := State s; RemoteAddr := RemoteAddr s; Config_Origin := Config_Origin s;
     origin := origin s; encoder := encoder s; decoder := d; entropy := entropy s |}.

Definition set_entropy (s : Session) (r : internal.Entropy) : Session :=
  {| State := State s; RemoteAddr := RemoteAddr s; Config_Origin := Config_Origin s;
     origin := origin s; encoder := encoder s; decoder := decoder s; entropy := r |}.

Definition set_origin (s : Session) (j : option jid.JID) : Session :=
  {| State := State s; RemoteAddr := RemoteAddr s; Config_Origin := Config_Origin s;
     origin := j; encoder := encoder s; decoder := decoder s; entropy := entropy s |}.

(** ** Values of type [interface{}] and the results of the closures *)

(** The dynamic values that travel from [Parse] to [Negotiate]. *)
Inductive interface :=
| untyped_nil
| of_string (s : string)
| of_other (type_name : string).

(** An [io.ReadWriter]; binding never returns one. *)
Inductive ReadWriter := conn (id : nat).

(** A call of [Negotiate] either returns its three results, leaving the
    session in some state, or panics. *)
Inductive Outcome :=
| Return (mask : SessionState) (rw : option ReadWriter) (err : option error)
         (session : Session)
| Panic.

(** A step that may panic. *)
Inductive may_panic (A : Type) :=
| done (a : A)
| panics.
Arguments done {A} a.
Arguments panics {A}.

(** The caller-supplied assignment function,
    a Go function from a [jid.JID] pointer and a string to a [jid.JID]
    pointer and an error. *)
Definition ServerFunc := option jid.JID -> string -> option jid.JID * option error.

(** [StreamFeature]: the closures take the objects they mutate and return
    them updated.  The [context.Context] argument is used by none of the
    three closures of bind.go and is left out. *)
Record StreamFeature := {
  Name : xml.Name;
  Necessary : SessionState;
  Prohibited : SessionState;
  List : Encoder -> xml.StartElement -> (bool * option error) * Encoder;
  Parse : Decoder -> option xml.StartElement
          -> (bool * interface * option error) * Decoder;
  Negotiate : Session -> interface -> Outcome
}.

(** The two start elements of lines 81-82. *)
Definition bindStart : xml.StartElement :=
  {| xml.SName := {| xml.Space := ns.Bind; xml.Local := "bind" |}; xml.SAttr := [] |}.
Definition jidStart : xml.StartElement :=
  {| xml.SName := {| xml.Space := ""; xml.Local := "jid" |}; xml.SAttr := [] |}.

(** ** BindCustom *)

Section Bind.

(** The validation of package jid used by [jid.New]. *)
Variable validate : string -> string -> string -> option error.

(** Lines 43-54. *)
Definition bind_List (e : Encoder) (start : xml.StartElement)
  : (bool * option error) * Encoder :=
  let req := true in
  let (err, e) := EncodeToken e (xml.StartElementTok start) in
  match err with
  | Some _ => ((req, err), e)
  | None =>
      let (err, e) := EncodeToken e (xml.End start) in
      match err with
      | Some _ => ((req, err), e)
      | None =>
          let (err, e) := Flush e in
          ((req, err), e)
      end
  end.

(** Lines 55-60: the decoded struct has the single field [XMLName] and is
    dropped; the parsed data returned is nil. *)
Definition bind_Parse (d : Decoder) (start : option xml.StartElement)
  : (bool * interface * option error) * Decoder :=
  let (err, d) := DecodeElement_parsed d start in
  ((true, untyped_nil, err), d).

(** Lines 68-77: the address the receiving role assigns, as Go's pair
    (pointer, error).  The arguments of the call at line 71 are evaluated
    from left to right, so the failing type assertion [data.(string)]
    panics before [server] runs; at line 76 [j.Localpart()] dereferences
    the remote address. *)
Definition assign (server : option ServerFunc) (session : Session) (data : interface)
  : may_panic ((option jid.JID * option error) * Session) :=
  match server with
  | Some f =>
      let remote := RemoteAddr session in
      match data with
      | of_string requested => done (f remote requested, session)
      | _ => panics
      end
  | None =>
      match RemoteAddr session with
      | None => panics
      | Some j =>
          let (id, r) := internal.RandomID (entropy session) in
          done (jid.New validate (jid.Localpart j) (jid.Domainpart j) id,
                set_entropy session r)
      end
  end.

(** Lines 81-98: the receiving role writes its answer.  [j.String()] at
    line 89 dereferences [j]. *)
Definition respond (mask : SessionState) (session : Session) (j : option jid.JID)
  : Outcome :=
  let (err, e) := EncodeToken (encoder session) (xml.StartElementTok bindStart) in
  match err with
  | Some _ => Return mask None err (set_encoder session e)
  | None =>
  let (err, e) := EncodeToken e (xml.StartElementTok jidStart) in
  match err with
  | Some _ => Return mask None err (set_encoder session e)
  | None =>
  match j with
  | None => Panic
  | Some j =>
  let (err, e) := EncodeToken e (xml.CharData (jid.String j)) in
  match err with
  | Some _ => Return mask None err (set_encoder session e)
  | None =>
  let (err, e) := EncodeToken e (xml.End jidStart) in
  match err with
  | Some _ => Return mask None err (set_encoder session e)
  | None =>
  let (err, e) := EncodeToken e (xml.End bindStart) in
  match err with
  | Some _ => Return mask None err (set_encoder session e)
  | None =>
  let (err, e) := Flush e in
  Return mask None err (set_encoder session e)
  end end end end end end.

(** Lines 155-165: the decoded response is checked against the request. *)
Definition conclude (mask : SessionState) (session : Session) (reqID : string)
                    (resp : bindResponse) : Outcome :=
  if negb (stanza.ID (resp_IQ resp) =? reqID)%string then
    Return mask None (Some (stream_error stream.UndefinedCondition)) session
  else if stanza.IQType_eqb (stanza.Type_ (resp_IQ resp)) stanza.ResultIQ then
    Return Ready None None (set_origin session (resp_Bind_JID resp))
  else if stanza.IQType_eqb (stanza.Type_ (resp_IQ resp)) stanza.ErrorIQ then
    Return mask None (Some (stanza_error (resp_Err resp))) session
  else
    Return mask None
           (Some (stanza_error (stanza.Error_of_Condition stanza.BadRequest))) session.

(** Lines 101-165: the initiating role sends its request and reads the
    answer. *)
Definition request (mask : SessionState) (session : Session) : Outcome :=
  let (reqID, r) := internal.RandomID (entropy session) in
  let session := set_entropy session r in
  let (err, e) :=
    Encode (encoder session)
           {| req_IQ := {| stanza.ID := reqID; stanza.Type_ := stanza.SetIQ |};
              req_Resource := jid.Resourcepart (Config_Origin session) |} in
  let session := set_encoder session e in
  match err with
  | Some _ => Return mask None err session
  | None =>
  let (tok, d) := Token (decoder session) in
  let session := set_decoder session d in
  match tok with
  | inr err => Return mask None (Some err) session
  | inl (xml.StartElementTok start) =>
      if xml.Name_eqb (xml.SName start)
                      {| xml.Space := ns.Client; xml.Local := "iq" |}
      then
        let (decoded, d) := DecodeElement_response d (Some start) in
        let session := set_decoder session d in
        match decoded with
        | inr err => Return mask None (Some err) session
        | inl resp => conclude mask session reqID resp
        end
      else Return mask None (Some (stream_error stream.BadFormat)) session
  | inl _ => Return mask None (Some (stream_error stream.BadFormat)) session
  end end.

(** Lines 61-166.  [mask] is the named result; it is never assigned and
    keeps its zero value. *)
Definition bind_Negotiate (server : option ServerFunc)
                          (session : Session) (data : interface) : Outcome :=
  let mask : SessionState := 0 in
  if Z.land (State session) Received =? Received then
    match assign server session data with
    | panics => Panic
    | done (j, err, session) =>
        match err with
        | Some _ => Return mask None err session
        | None => respond mask session j
        end
    end
  else request mask session.

Definition BindCustom (server : option ServerFunc) : StreamFeature :=
  {| Name := {| xml.Space := ns.Bind; xml.Local := "bind" |};
     Necessary := Authn;
     Prohibited := Ready;
     List := bind_List;
     Parse := bind_Parse;
     Negotiate := bind_Negotiate server |}.

Definition BindResource : StreamFeature := BindCustom None.

End Bind.

(** ** Reading the results of a call *)

Definition List_mandatory (r : (bool * option error) * Encoder) : bool := fst (fst r).
Definition List_error (r : (bool * option error) * Encoder) : option error := snd (fst r).
Definition List_encoder (r : (bool * option error) * Encoder) : Encoder := snd r.

Definition Parse_data (r : (bool * interface * option error) * Decoder) : interface :=
  snd (fst (fst r)).

(** The role of a session: the test of line 67. *)
Definition receiving (s : Session) : Prop := Z.land (State s) Received = Received.
Definition initiating (s : Session) : Prop := Z.land (State s) Received <> Received.

(** The next [n] operations of the encoder succeed. *)
Definition clear_for (n : nat) (e : Encoder) : Prop :=
  Forall (fun f => f = None) (firstn n (faults e)).

(** The identifier the next call of [internal.RandomID] hands out. *)
Definition next_id (s : Session) : string := fst (internal.RandomID (entropy s)).

(** The five tokens of the receiving role's answer for the address text
    [text]. *)
Definition answer (text : string) : list Written :=
  [ WToken (xml.StartElementTok bindStart);
    WToken (xml.StartElementTok jidStart);
    WToken (xml.CharData text);
    WToken (xml.End jidStart);
    WToken (xml.End bindStart) ].

(** The response envelope's name, as compared at line 147. *)
Definition iqName : xml.Name := {| xml.Space := ns.Client; xml.Local := "iq" |}.

(** The request of lines 103-119 for identifier [reqID]. *)
Definition request_for (s : Session) (reqID : string) : bindRequest :=
  {| req_IQ := {| stanza.ID := reqID; stanza.Type_ := stanza.SetIQ |};
     req_Resource := jid.Resourcepart (Config_Origin s) |}.

(** The session once the initiating role has drawn its identifier and
    encoded its request (lines 102-119). *)
Definition after_request (s : Session) : Session :=
  set_encoder (set_entropy s (snd (internal.RandomID (entropy s))))
              (snd (Encode (encoder s) (request_for s (next_id s)))).

(** The same session once [items] are all that is left to read. *)
Definition left_to_read (s : Session) (items : list Item) : Session :=
  set_decoder (after_request s) {| input := items |}.

(** ** Concrete sessions, for evaluating the closures *)

Module Sample.

(** A validation that only asks for a domainpart. *)
Definition validate (l d r : string) : option error :=
  if (d =? "")%string then Some (other_error "empty domainpart") else None.

Definition ids : internal.Entropy :=
  {| internal.drawn := 0;
     internal.source := fun n => match n with
                                 | O => "3f9a04c1"
                                 | _ => "b7e2d055"
                                 end |}.

Definition peer : jid.JID :=
  {| jid.Localpart := "user"; jid.Domainpart := "example.com";
     jid.Resourcepart := "orig" |}.

Definition account : jid.JID :=
  {| jid.Localpart := "user"; jid.Domainpart := "example.com";
     jid.Resourcepart := "" |}.

Definition quiet : Encoder := {| buffered := []; wire := []; faults := [] |}.

Definition failing : Encoder :=
  {| buffered := []; wire := []; faults := [Some (other_error "broken pipe")] |}.

(** A receiving session: authenticated, peer known, nothing to read. *)
Definition server (e : Encoder) : Session :=
  {| State := Z.lor Authn Received;
     RemoteAddr := Some peer;
     Config_Origin := account;
     origin := None;
     encoder := e;
     decoder := {| input := [] |};
     entropy := ids |}.

(** An initiating session whose peer will send [items]. *)
Definition client (items : list Item) : Session :=
  {| State := Authn;
     RemoteAddr := None;
     Config_Origin := account;
     origin := None;
     encoder := quiet;
     decoder := {| input := items |};
     entropy := ids |}.

Definition iq : xml.StartElement := {| xml.SName := iqName; xml.SAttr := [] |}.

Definition bound : jid.JID :=
  {| jid.Localpart := "user"; jid.Domainpart := "example.com";
     jid.Resourcepart := "3f9a04c1" |}.

Definition no_error : stanza.Error := stanza.Error_of_Condition "".

Definition not_allowed : stanza.Error :=
  {| stanza.ErrType := "cancel"; stanza.Condition := stanza.NotAllowed;
     stanza.Text := "" |}.

(** A decoded response, and the element the decoder delivers it from. *)
Definition reply (id : string) (kind : stanza.IQType)
                 (j : option jid.JID) (e : stanza.Error) : bindResponse :=
  {| resp_IQ := {| stanza.ID := id; stanza.Type_ := kind |};
     resp_Bind_JID := j;
     resp_Err := e |}.

Definition element (r : bindResponse) : Content :=
  {| into_parsed := Some unexpected; into_response := inl r |}.

Definition response (id : string) (kind : stanza.IQType)
                    (j : option jid.JID) (e : stanza.Error) : Item :=
  Elem (element (reply id kind j e)).

(** A well-formed bind request element, as [Parse] finds it after the
    engine has read its start tag.  Whatever resource the element asks
    for, the decoder only reports that the element decoded. *)
Definition bind_request : Decoder :=
  {| input := [Elem {| into_parsed := None;
                       into_response := inr unexpected |}] |}.

(** The peer answers with character data. *)
Definition greeted : Session := client [Tok (xml.CharData "hello")].

(** The peer answers with an element that is not the response envelope. *)
Definition misplaced : Session :=
  client [Tok (xml.StartElementTok bindStart);
          response "3f9a04c1" stanza.ResultIQ (Some bound) no_error].

(** The peer answers with a result under an identifier of its own. *)
Definition crossed : Session :=
  client [Tok (xml.StartElementTok iq);
          response "b7e2d055" stanza.ResultIQ (Some bound) no_error].

(** The peer answers the request with the bound address. *)
Definition granted : Session :=
  client [Tok (xml.StartElementTok iq);
          response "3f9a04c1" stanza.ResultIQ (Some bound) no_error].

(** The peer refuses the request. *)
Definition refused : Session :=
  client [Tok (xml.StartElementTok iq);
          response "3f9a04c1" stanza.ErrorIQ None not_allowed].

Definition assign_by_request : ServerFunc :=
  fun remote requested =>
    match remote with
    | Some j => jid.New validate (jid.Localpart j) (jid.Domainpart j) requested
    | None => (None, Some (other_error "no peer address"))
    end.

End Sample.

(** ** Where a run of encoder operations stops *)

(** The first failure among the next [n] encoder operations, if any. *)
Fixpoint first_fault (n : nat) (fs : list (option error)) : option error :=
  match n with
  | O => None
  | S n' =>
      match fs with
      | [] => None
      | Some e :: _ => Some e
      | None :: fs' => first_fault n' fs'
      end
  end.

(** How many of [n] operations in a row are attempted when the run is
    given up at the first failure. *)
Fixpoint attempted (n : nat) (fs : list (option error)) : nat :=
  match n with
  | O => O
  | S n' =>
      match fs with
      | Some _ :: _ => 1%nat
      | None :: fs' => S (attempted n' fs')
      | [] => S (attempted n' [])
      end
  end.

(** The entropy after one call of [internal.RandomID]. *)
Definition after_draw (r : internal.Entropy) : internal.Entropy :=
  snd (internal.RandomID r).

(** ** Further sessions, for the error paths *)

Module Cases.

(** A peer whose address has no domainpart: [Sample.validate] rejects every
    address built from it. *)
Definition nameless : jid.JID :=
  {| jid.Localpart := "user"; jid.Domainpart := ""; jid.Resourcepart := "orig" |}.

Definition stranger (e : Encoder) : Session :=
  {| State := Z.lor Authn Received;
     RemoteAddr := Some nameless;
     Config_Origin := Sample.account;
     origin := None;
     encoder := e;
     decoder := {| input := [] |};
     entropy := Sample.ids |}.

(** An assignment function that refuses every request, though it returns
    an address beside its error. *)
Definition refuse : ServerFunc :=
  fun _ _ => (Some Sample.peer, Some (other_error "conflict")).

(** An encoder with pending output whose third operation will fail. *)
Definition third_fails : Encoder :=
  {| buffered := [];
     wire := [];
     faults := [None; None; Some (other_error "broken pipe"); None] |}.

(** An initiating session that wants resource ["home"], over encoder [e]. *)
Definition wanting (e : Encoder) (items : list Item) : Session :=
  {| State := Authn;
     RemoteAddr := None;
     Config_Origin := {| jid.Localpart := "user"; jid.Domainpart := "example.com";
                         jid.Resourcepart := "home" |};
     origin := None;
     encoder := e;
     decoder := {| input := items |};
     entropy := Sample.ids |}.

(** The peer's stream breaks off before the answer, or inside it. *)
Definition cut_off : list Item := [Broken (other_error "connection reset")].
Definition cut_inside : list Item :=
  [Tok (xml.StartElementTok Sample.iq);
   Elem {| into_parsed := Some unexpected;
           into_response := inr (other_error "unexpected EOF") |}].

(** The peer answers the request with a kind that is no answer. *)
Definition echoed : list Item :=
  [Tok (xml.StartElementTok Sample.iq);
   Sample.response "3f9a04c1" stanza.SetIQ None Sample.no_error].

End Cases.

(** * Properties *)

(** ** Auxiliary facts *)

Lemma Name_eqb_eq (a b : xml.Name) : xml.Name_eqb a b = true <-> a = b.
Proof.
  destruct a as [sa la], b as [sb lb]; unfold xml.Name_eqb; simpl.
  rewrite andb_true_iff, !String.eqb_eq.
  split; [intros [-> ->]; reflexivity | intros H; inversion H; auto].
Qed.

Lemma Name_eqb_neq (a b : xml.Name) : xml.Name_eqb a b = false <-> a <> b.
Proof.
  rewrite <- Name_eqb_eq. destruct (xml.Name_eqb a b); split; congruence.
Qed.

(** Uses up a hypothesis that the coming encoder operations succeed. *)
Ltac use_clear :=
  repeat match goal with
         | H : Forall _ (_ :: _) |- _ => inversion H; clear H; subst
         end;
  try discriminate.

Lemma EncodeToken_clear (e : Encoder) (t : xml.Token) :
  next_fault e = None ->
  EncodeToken e t =
    (None, {| buffered := buffered e ++ [WToken t]; wire := wire e;
              faults := tl (faults e) |}).
Proof. unfold EncodeToken. intros ->. reflexivity. Qed.

Lemma EncodeToken_ok (e e' : Encoder) (t : xml.Token) :
  EncodeToken e t = (None, e') ->
  buffered e' = buffered e ++ [WToken t] /\ wire e' = wire e.
Proof.
  unfold EncodeToken. destruct (next_fault e); intros H; inversion H; subst.
  split; reflexivity.
Qed.

Lemma Flush_clear (e : Encoder) :
  next_fault e = None ->
  Flush e = (None, {| buffered := []; wire := wire e ++ buffered e;
                      faults := tl (faults e) |}).
Proof. unfold Flush. intros ->. reflexivity. Qed.

Lemma Flush_ok (e e' : Encoder) :
  Flush e = (None, e') ->
  buffered e' = [] /\ wire e' = wire e ++ buffered e.
Proof.
  unfold Flush. destruct (next_fault e); intros H; inversion H; subst.
  split; reflexivity.
Qed.

(** ** The advertisement *)

(** C10: [List] always reports the feature as mandatory; whenever it returns
    without an error it has written exactly the start tag it was given
    followed by the matching end tag, and flushed: the buffer is empty and
    the wire has grown by what was buffered and the two tags.  It returns
    without an error whenever the three encoder operations succeed, and for
    the feature's own start tag the end tag is that of [bind] in the
    binding namespace. *)
Theorem List_advertises_empty_bind :
  forall validate server (e : Encoder) (start : xml.StartElement),
    let r := List (BindCustom validate server) e start in
    List_mandatory r = true
    /\ (List_error r = None ->
        buffered (List_encoder r) = []
        /\ wire (List_encoder r) =
             wire e ++ buffered e
               ++ [WToken (xml.StartElementTok start); WToken (xml.End start)])
    /\ (clear_for 3 e -> List_error r = None)
    /\ (xml.SName start = Name (BindCustom validate server) ->
        xml.End start =
          xml.EndElement {| xml.Space := "urn:ietf:params:xml:ns:xmpp-bind";
                            xml.Local := "bind" |}).
Proof.
  intros validate server e start r. subst r. simpl List. simpl Name.
  unfold bind_List, List_mandatory, List_error, List_encoder.
  refine (conj _ (conj _ (conj _ _))).
  - destruct (EncodeToken e _) as [[x|] e1]; [reflexivity|].
    destruct (EncodeToken e1 _) as [[x|] e2]; [reflexivity|].
    destruct (Flush e2); reflexivity.
  - destruct (EncodeToken e _) as [[x|] e1] eqn:H1; [discriminate|].
    destruct (EncodeToken e1 _) as [[x|] e2] eqn:H2; [discriminate|].
    destruct (Flush e2) as [err e3] eqn:H3. simpl. intros ->.
    apply Flush_ok in H3. apply EncodeToken_ok in H1, H2.
    destruct H1 as [B1 W1], H2 as [B2 W2], H3 as [B3 W3].
    split; [exact B3|].
    rewrite W3, W2, W1, B2, B1, <- !app_assoc. reflexivity.
  - unfold clear_for, EncodeToken, Flush, next_fault.
    destruct e as [b w fs]; simpl.
    destruct fs as [|[x|] [|[y|] [|[z|] fs]]]; simpl; intros C;
      try reflexivity; use_clear.
  - intros H. unfold xml.End. rewrite H. reflexivity.
Qed.

(** The advertisement over a quiet encoder. *)
Lemma List_advertises_empty_bind_witness :
  List (BindResource Sample.validate) Sample.quiet bindStart =
    ((true, None),
     {| buffered := [];
        wire := [WToken (xml.StartElementTok bindStart);
                 WToken (xml.EndElement
                           {| xml.Space := "urn:ietf:params:xml:ns:xmpp-bind";
                              xml.Local := "bind" |})];
        faults := [] |})
  /\ List_error (List (BindResource Sample.validate) Sample.quiet bindStart) = None.
Proof.
  split; [reflexivity|].
  apply (List_advertises_empty_bind Sample.validate None Sample.quiet bindStart).
  repeat constructor.
Defined.

(** ** What [Parse] hands to [Negotiate] *)

(** C2: the parsed data [Parse] returns is nil for every decoder and start
    tag, so it is never the resource string a bind request asked for; for
    the sample request the call succeeds and still returns nil. *)
Theorem Parse_drops_requested_resource :
  (forall validate server (d : Decoder) (start : option xml.StartElement)
          (requested : string),
      Parse_data (Parse (BindCustom validate server) d start) <> of_string requested)
  /\ Parse (BindResource Sample.validate) Sample.bind_request (Some bindStart)
     = ((true, untyped_nil, None), {| input := [] |}).
Proof.
  split; [|reflexivity].
  intros validate server d start requested. simpl Parse.
  unfold bind_Parse, Parse_data.
  destruct (DecodeElement_parsed d start). simpl. discriminate.
Qed.

(** C3: with an assignment function, a receiving-role [Negotiate] hands
    its data to the function only through the type assertion of line 71: a
    string goes to the function together with the remote address, and on
    every data that is not a string the call panics.  [Parse] always
    returns nil, so [Negotiate] panics on whatever [Parse] produced. *)
Theorem Negotiate_custom_panics_on_parsed_data :
  forall validate (f : ServerFunc) (s : Session),
    receiving s ->
    (forall str, assign validate (Some f) s (of_string str)
                 = done (f (RemoteAddr s) str, s))
    /\ (forall data, (forall str, data <> of_string str) ->
                     Negotiate (BindCustom validate (Some f)) s data = Panic)
    /\ (forall d start,
          Parse_data (Parse (BindCustom validate (Some f)) d start) = untyped_nil
          /\ Negotiate (BindCustom validate (Some f)) s
                       (Parse_data (Parse (BindCustom validate (Some f)) d start))
             = Panic).
Proof.
  intros validate f s R. unfold receiving in R.
  assert (P : forall data, (forall str, data <> of_string str) ->
                           bind_Negotiate validate (Some f) s data = Panic).
  { intros data N. unfold bind_Negotiate.
    apply Z.eqb_eq in R. rewrite R. unfold assign.
    destruct data as [|str|other]; try reflexivity.
    exfalso. apply (N str). reflexivity. }
  split; [reflexivity|]. split; [exact P|].
  intros d start.
  assert (D : Parse_data (Parse (BindCustom validate (Some f)) d start) = untyped_nil).
  { simpl Parse. unfold bind_Parse, Parse_data.
    destruct (DecodeElement_parsed d start). reflexivity. }
  split; [exact D|].
  rewrite D. apply P. discriminate.
Qed.

(** A receiving session with an assignment function, fed what [Parse] made
    of a bind request. *)
Lemma Negotiate_custom_panics_on_parsed_data_witness :
  receiving (Sample.server Sample.quiet)
  /\ Negotiate (BindCustom Sample.validate (Some Sample.assign_by_request))
               (Sample.server Sample.quiet)
               (Parse_data (Parse (BindCustom Sample.validate
                                              (Some Sample.assign_by_request))
                                  Sample.bind_request (Some bindStart)))
     = Panic.
Proof.
  split; [reflexivity|].
  apply (Negotiate_custom_panics_on_parsed_data
           Sample.validate Sample.assign_by_request (Sample.server Sample.quiet)).
  reflexivity.
Defined.

(** ** The receiving role *)

(** C1, as stated, fails: the sample receiving session has no assignment
    function and is fed a request for resource ["home"]; the address it
    assigns has the generated resourcepart ["3f9a04c1"], not ["home"], and
    [Negotiate] answers with [user@example.com/3f9a04c1]. *)
Lemma requested_home_is_not_assigned :
  receiving (Sample.server Sample.quiet)
  /\ assign Sample.validate None (Sample.server Sample.quiet) (of_string "home")
     = done (Some Sample.bound, None,
             set_entropy (Sample.server Sample.quiet)
                         (snd (internal.RandomID Sample.ids)))
  /\ jid.Resourcepart Sample.bound <> "home"
  /\ Negotiate (BindResource Sample.validate) (Sample.server Sample.quiet)
               (of_string "home")
     = Return 0 None None
         (set_encoder
            (set_entropy (Sample.server Sample.quiet)
                         (snd (internal.RandomID Sample.ids)))
            {| buffered := [];
               wire := answer "user@example.com/3f9a04c1";
               faults := [] |}).
Proof.
  split; [reflexivity|]. split; [reflexivity|]. split; [discriminate|].
  reflexivity.
Qed.

(** C1, amended: without an assignment function the address assigned by the
    receiving role has the identifier generated by [internal.RandomID] as
    its resourcepart, whatever the parsed data asked for; the data has no
    part in what [Negotiate] does. *)
Theorem assigned_resourcepart_is_generated :
  forall validate (s : Session) (data : interface) (j : jid.JID) (s1 : Session),
    receiving s ->
    assign validate None s data = done (Some j, None, s1) ->
    jid.Resourcepart j = next_id s
    /\ forall data',
         Negotiate (BindResource validate) s data'
         = Negotiate (BindResource validate) s data.
Proof.
  intros validate s data j s1 _ A. split; [|reflexivity].
  unfold assign in A. destruct (RemoteAddr s) as [p|]; [|discriminate].
  unfold next_id. destruct (internal.RandomID (entropy s)) as [id r].
  unfold jid.New in A.
  destruct (validate _ _ id); inversion A; subst. reflexivity.
Qed.

(** The sample session asked for ["home"]. *)
Lemma assigned_resourcepart_is_generated_witness :
  receiving (Sample.server Sample.quiet)
  /\ assign Sample.validate None (Sample.server Sample.quiet) (of_string "home")
     = done (Some Sample.bound, None,
             set_entropy (Sample.server Sample.quiet)
                         (snd (internal.RandomID Sample.ids)))
  /\ jid.Resourcepart Sample.bound = "3f9a04c1".
Proof.
  split; [reflexivity|]. split; [reflexivity|].
  apply (assigned_resourcepart_is_generated
           Sample.validate (Sample.server Sample.quiet) (of_string "home")
           Sample.bound
           (set_entropy (Sample.server Sample.quiet)
                        (snd (internal.RandomID Sample.ids))));
    reflexivity.
Defined.

(** What a successful run of lines 81-98 leaves in the encoder. *)
Lemma respond_ok (mask mask' : SessionState) (s s' : Session)
      (j : option jid.JID) (rw : option ReadWriter) :
  respond mask s j = Return mask' rw None s' ->
  exists a, j = Some a
    /\ mask' = mask /\ rw = None
    /\ buffered (encoder s') = []
    /\ wire (encoder s') =
         wire (encoder s) ++ buffered (encoder s) ++ answer (jid.String a).
Proof.
  unfold respond.
  destruct (EncodeToken (encoder s) _) as [[x|] e1] eqn:H1; [discriminate|].
  destruct (EncodeToken e1 _) as [[x|] e2] eqn:H2; [discriminate|].
  destruct j as [a|]; [|discriminate].
  destruct (EncodeToken e2 _) as [[x|] e3] eqn:H3; [discriminate|].
  destruct (EncodeToken e3 _) as [[x|] e4] eqn:H4; [discriminate|].
  destruct (EncodeToken e4 _) as [[x|] e5] eqn:H5; [discriminate|].
  destruct (Flush e5) as [err e6] eqn:H6.
  intros R. inversion R; subst. exists a.
  apply EncodeToken_ok in H1, H2, H3, H4, H5. apply Flush_ok in H6.
  destruct H1 as [B1 W1], H2 as [B2 W2], H3 as [B3 W3], H4 as [B4 W4],
           H5 as [B5 W5], H6 as [B6 W6].
  repeat split; [exact B6|]. simpl encoder.
  rewrite W6, W5, W4, W3, W2, W1, B5, B4, B3, B2, B1.
  unfold answer. rewrite <- !app_assoc. reflexivity.
Qed.

(** Lines 81-98 succeed when the six encoder operations do. *)
Lemma respond_clear (mask : SessionState) (s : Session) (a : jid.JID) :
  clear_for 6 (encoder s) ->
  exists s', respond mask s (Some a) = Return mask None None s'.
Proof.
  unfold clear_for, respond, EncodeToken, Flush, next_fault.
  destruct (encoder s) as [b w fs]; simpl.
  destruct fs as [|[x1|] [|[x2|] [|[x3|] [|[x4|] [|[x5|] [|[x6|] fs]]]]]];
    simpl; intros C; use_clear; eexists; reflexivity.
Qed.

(** C9: in a receiving session without an assignment function whose peer
    address is [peer], the assigned address is [peer] with its resourcepart
    replaced by the generated identifier.  Whenever [Negotiate] returns
    without an error its flag delta is zero, it returns no stream, and the
    encoder is flushed with the wire extended by a [bind] element that wraps
    one [jid] child holding the string form of that address.  It returns
    without an error whenever the address passes validation and the six
    encoder operations succeed. *)
Theorem Negotiate_receiving_assigns_and_answers :
  forall validate (s : Session) (data : interface) (peer : jid.JID),
    receiving s ->
    RemoteAddr s = Some peer ->
    let j := {| jid.Localpart := jid.Localpart peer;
                jid.Domainpart := jid.Domainpart peer;
                jid.Resourcepart := next_id s |} in
    (forall j' err s1,
        assign validate None s data = done (Some j', err, s1) -> j' = j)
    /\ (forall mask rw s',
           Negotiate (BindResource validate) s data = Return mask rw None s' ->
           mask = 0 /\ rw = None
           /\ buffered (encoder s') = []
           /\ wire (encoder s') =
                wire (encoder s) ++ buffered (encoder s) ++ answer (jid.String j))
    /\ (validate (jid.Localpart peer) (jid.Domainpart peer) (next_id s) = None ->
        clear_for 6 (encoder s) ->
        exists s', Negotiate (BindResource validate) s data = Return 0 None None s').
Proof.
  intros validate s data peer R P j. unfold receiving in R.
  apply Z.eqb_eq in R. subst j. unfold next_id.
  simpl Negotiate. unfold bind_Negotiate, assign. rewrite R, P.
  destruct (internal.RandomID (entropy s)) as [id r]. simpl fst.
  unfold jid.New.
  refine (conj _ (conj _ _)).
  - intros j' err s1 A.
    destruct (validate _ _ id); inversion A; subst. reflexivity.
  - intros mask rw s' N.
    destruct (validate _ _ id); [discriminate|].
    apply respond_ok in N. destruct N as (a & Ja & M & RW & B & W).
    inversion Ja; subst a. simpl encoder in W. auto.
  - intros V C. rewrite V.
    apply (respond_clear 0 (set_entropy s r)). exact C.
Qed.

(** The sample receiving session answers with [user@example.com/3f9a04c1]. *)
Lemma Negotiate_receiving_assigns_and_answers_witness :
  receiving (Sample.server Sample.quiet)
  /\ RemoteAddr (Sample.server Sample.quiet) = Some Sample.peer
  /\ Negotiate (BindResource Sample.validate) (Sample.server Sample.quiet) untyped_nil
     = Return 0 None None
         (set_encoder
            (set_entropy (Sample.server Sample.quiet)
                         (snd (internal.RandomID Sample.ids)))
            {| buffered := [];
               wire := answer "user@example.com/3f9a04c1";
               faults := [] |})
  /\ (0 = 0 /\ @None ReadWriter = None
      /\ @nil Written = []
      /\ answer "user@example.com/3f9a04c1"
         = [] ++ [] ++ answer (jid.String Sample.bound)).
Proof.
  split; [reflexivity|]. split; [reflexivity|]. split; [reflexivity|].
  pose proof (Negotiate_receiving_assigns_and_answers
                Sample.validate (Sample.server Sample.quiet) untyped_nil Sample.peer
                eq_refl eq_refl) as H.
  cbv zeta in H. destruct H as (_ & H & _).
  apply (H 0 None
           (set_encoder
              (set_entropy (Sample.server Sample.quiet)
                           (snd (internal.RandomID Sample.ids)))
              {| buffered := [];
                 wire := answer "user@example.com/3f9a04c1";
                 faults := [] |})).
  reflexivity.
Defined.

(** ** The initiating role *)

(** The initiating role up to the first read: with the request encoded
    without error, [Negotiate] goes on with the token the decoder delivers. *)
Lemma Negotiate_initiating_sends (validate : string -> string -> string -> option error)
      (server : option ServerFunc) (s : Session) (data : interface) :
  initiating s ->
  next_fault (encoder s) = None ->
  Negotiate (BindCustom validate server) s data =
    match Token (decoder s) with
    | (inr err, d) => Return 0 None (Some err) (set_decoder (after_request s) d)
    | (inl (xml.StartElementTok start), d) =>
        if xml.Name_eqb (xml.SName start) iqName then
          match DecodeElement_response d (Some start) with
          | (inr err, d') => Return 0 None (Some err) (set_decoder (after_request s) d')
          | (inl resp, d') =>
              conclude 0 (set_decoder (after_request s) d') (next_id s) resp
          end
        else Return 0 None (Some (stream_error stream.BadFormat))
                    (set_decoder (after_request s) d)
    | (inl _, d) => Return 0 None (Some (stream_error stream.BadFormat))
                           (set_decoder (after_request s) d)
    end.
Proof.
  intros I F. unfold initiating in I. apply Z.eqb_neq in I.
  simpl Negotiate. unfold bind_Negotiate. rewrite I.
  unfold request, after_request, next_id, request_for, iqName.
  destruct (internal.RandomID (entropy s)) as [id r]. simpl fst. simpl snd.
  unfold Encode. simpl encoder. rewrite F. simpl.
  destruct (Token (decoder s)) as [[t|err] d]; [|reflexivity].
  destruct t; reflexivity.
Qed.

(** C5: in the initiating role, once the request is encoded, a first token
    that is not a start element, or a start element whose name is not that
    of the response envelope, makes [Negotiate] return [stream.BadFormat]
    with a zero flag delta; the decoder has given out that one token and
    nothing more. *)
Theorem Negotiate_rejects_unexpected_first_token :
  forall validate server (s : Session) (data : interface)
         (t : xml.Token) (rest : list Item),
    initiating s ->
    next_fault (encoder s) = None ->
    input (decoder s) = Tok t :: rest ->
    (forall start, t = xml.StartElementTok start -> xml.SName start <> iqName) ->
    Negotiate (BindCustom validate server) s data =
      Return 0 None (Some (stream_error stream.BadFormat)) (left_to_read s rest).
Proof.
  intros validate server s data t rest I F In N.
  rewrite (Negotiate_initiating_sends validate server s data I F).
  unfold Token. rewrite In. unfold left_to_read.
  destruct t as [start| | | | |]; try reflexivity.
  specialize (N start eq_refl). apply Name_eqb_neq in N. rewrite N. reflexivity.
Qed.

(** Character data first, and a start element of another name. *)
Lemma Negotiate_rejects_unexpected_first_token_witness :
  Negotiate (BindResource Sample.validate) Sample.greeted untyped_nil
  = Return 0 None (Some (stream_error stream.BadFormat))
           (left_to_read Sample.greeted [])
  /\ Negotiate (BindResource Sample.validate) Sample.misplaced untyped_nil
     = Return 0 None (Some (stream_error stream.BadFormat))
              (left_to_read Sample.misplaced
                 [Sample.response "3f9a04c1" stanza.ResultIQ
                                  (Some Sample.bound) Sample.no_error]).
Proof.
  split.
  - apply (Negotiate_rejects_unexpected_first_token
             Sample.validate None Sample.greeted untyped_nil
             (xml.CharData "hello") []);
      [ discriminate | reflexivity | reflexivity | discriminate ].
  - apply (Negotiate_rejects_unexpected_first_token
             Sample.validate None Sample.misplaced untyped_nil
             (xml.StartElementTok bindStart)
             [Sample.response "3f9a04c1" stanza.ResultIQ
                              (Some Sample.bound) Sample.no_error]);
      [ discriminate | reflexivity | reflexivity | ].
    intros start H. inversion H; subst. discriminate.
Defined.

(** C4: in the initiating role, a decoded response whose identifier differs
    from the one generated for the request makes [Negotiate] return
    [stream.UndefinedCondition] with a zero flag delta, whatever the kind,
    address and error detail of the response; the session's local address
    is left as it was. *)
Theorem Negotiate_rejects_foreign_identifier :
  forall validate server (s : Session) (data : interface)
         (start : xml.StartElement) (c : Content) (resp : bindResponse)
         (rest : list Item),
    initiating s ->
    next_fault (encoder s) = None ->
    input (decoder s) = Tok (xml.StartElementTok start) :: Elem c :: rest ->
    xml.SName start = iqName ->
    into_response c = inl resp ->
    stanza.ID (resp_IQ resp) <> next_id s ->
    Negotiate (BindCustom validate server) s data =
      Return 0 None (Some (stream_error stream.UndefinedCondition))
             (left_to_read s rest)
    /\ origin (left_to_read s rest) = origin s.
Proof.
  intros validate server s data start c resp rest I F In Nm Dec Id.
  split; [|reflexivity].
  rewrite (Negotiate_initiating_sends validate server s data I F).
  unfold Token. rewrite In.
  apply Name_eqb_eq in Nm. rewrite Nm.
  unfold DecodeElement_response. cbn [input]. rewrite Dec.
  unfold conclude. apply String.eqb_neq in Id. rewrite Id. reflexivity.
Qed.

(** A result-kind response with an address, under another identifier. *)
Lemma Negotiate_rejects_foreign_identifier_witness :
  Negotiate (BindResource Sample.validate) Sample.crossed untyped_nil
  = Return 0 None (Some (stream_error stream.UndefinedCondition))
           (left_to_read Sample.crossed [])
  /\ origin (left_to_read Sample.crossed []) = None.
Proof.
  eapply (Negotiate_rejects_foreign_identifier
            Sample.validate None Sample.crossed untyped_nil Sample.iq);
    [ discriminate | reflexivity | reflexivity | reflexivity | reflexivity
    | discriminate ].
Defined.

(** C6: in the initiating role, a decoded result-kind response under the
    identifier generated for the request makes [Negotiate] assign the
    address nested in the response to the session's [origin] and return
    without error, with the flag delta [Ready] and no stream. *)
Theorem Negotiate_records_bound_address :
  forall validate server (s : Session) (data : interface)
         (start : xml.StartElement) (c : Content) (resp : bindResponse)
         (rest : list Item),
    initiating s ->
    next_fault (encoder s) = None ->
    input (decoder s) = Tok (xml.StartElementTok start) :: Elem c :: rest ->
    xml.SName start = iqName ->
    into_response c = inl resp ->
    stanza.ID (resp_IQ resp) = next_id s ->
    stanza.Type_ (resp_IQ resp) = stanza.ResultIQ ->
    Negotiate (BindCustom validate server) s data =
      Return Ready None None
             (set_origin (left_to_read s rest) (resp_Bind_JID resp))
    /\ origin (set_origin (left_to_read s rest) (resp_Bind_JID resp))
       = resp_Bind_JID resp
    /\ Z.land Ready Ready = Ready.
Proof.
  intros validate server s data start c resp rest I F In Nm Dec Id Ty.
  split; [|split; reflexivity].
  rewrite (Negotiate_initiating_sends validate server s data I F).
  unfold Token. rewrite In.
  apply Name_eqb_eq in Nm. rewrite Nm.
  unfold DecodeElement_response. cbn [input]. rewrite Dec.
  unfold conclude. apply String.eqb_eq in Id. rewrite Id, Ty. reflexivity.
Qed.

(** The sample request is granted. *)
Lemma Negotiate_records_bound_address_witness :
  Negotiate (BindResource Sample.validate) Sample.granted untyped_nil
  = Return Ready None None
           (set_origin (left_to_read Sample.granted []) (Some Sample.bound))
  /\ origin (set_origin (left_to_read Sample.granted []) (Some Sample.bound))
     = Some Sample.bound
  /\ Z.land Ready Ready = Ready.
Proof.
  eapply (Negotiate_records_bound_address
            Sample.validate None Sample.granted untyped_nil Sample.iq
            (Sample.element (Sample.reply "3f9a04c1" stanza.ResultIQ
                                          (Some Sample.bound) Sample.no_error))
            (Sample.reply "3f9a04c1" stanza.ResultIQ
                          (Some Sample.bound) Sample.no_error)
            []);
    [ discriminate | reflexivity | reflexivity | reflexivity | reflexivity
    | reflexivity | reflexivity ].
Defined.

(** C7: in the initiating role, a decoded error-kind response under the
    identifier generated for the request makes [Negotiate] return the error
    detail nested in the response, unchanged, as its error; the flag delta
    is zero, so [Ready] is not in it, and the session's local address is
    left as it was. *)
Theorem Negotiate_surfaces_peer_error :
  forall validate server (s : Session) (data : interface)
         (start : xml.StartElement) (c : Content) (resp : bindResponse)
         (rest : list Item),
    initiating s ->
    next_fault (encoder s) = None ->
    input (decoder s) = Tok (xml.StartElementTok start) :: Elem c :: rest ->
    xml.SName start = iqName ->
    into_response c = inl resp ->
    stanza.ID (resp_IQ resp) = next_id s ->
    stanza.Type_ (resp_IQ resp) = stanza.ErrorIQ ->
    Negotiate (BindCustom validate server) s data =
      Return 0 None (Some (stanza_error (resp_Err resp))) (left_to_read s rest)
    /\ Z.land 0 Ready <> Ready
    /\ origin (left_to_read s rest) = origin s.
Proof.
  intros validate server s data start c resp rest I F In Nm Dec Id Ty.
  split; [|split; [discriminate | reflexivity]].
  rewrite (Negotiate_initiating_sends validate server s data I F).
  unfold Token. rewrite In.
  apply Name_eqb_eq in Nm. rewrite Nm.
  unfold DecodeElement_response. cbn [input]. rewrite Dec.
  unfold conclude. apply String.eqb_eq in Id. rewrite Id, Ty. reflexivity.
Qed.

(** The sample request is refused with condition [not-allowed]. *)
Lemma Negotiate_surfaces_peer_error_witness :
  Negotiate (BindResource Sample.validate) Sample.refused untyped_nil
  = Return 0 None
           (Some (stanza_error {| stanza.ErrType := "cancel";
                                  stanza.Condition := "not-allowed";
                                  stanza.Text := "" |}))
           (left_to_read Sample.refused [])
  /\ Z.land 0 Ready <> Ready
  /\ origin (left_to_read Sample.refused []) = None.
Proof.
  eapply (Negotiate_surfaces_peer_error
            Sample.validate None Sample.refused untyped_nil Sample.iq
            (Sample.element (Sample.reply "3f9a04c1" stanza.ErrorIQ
                                          None Sample.not_allowed))
            (Sample.reply "3f9a04c1" stanza.ErrorIQ None Sample.not_allowed)
            []);
    [ discriminate | reflexivity | reflexivity | reflexivity | reflexivity
    | reflexivity | reflexivity ].
Defined.

(** ** Errors carry no flags *)

Lemma respond_error_mask (mask mask' : SessionState) (s s' : Session)
      (j : option jid.JID) (rw : option ReadWriter) (err : option error) :
  respond mask s j = Return mask' rw err s' -> mask' = mask.
Proof.
  unfold respond.
  repeat match goal with
         | |- context [match ?x with _ => _ end] => destruct x
         end;
    intros R; inversion R; reflexivity.
Qed.

Lemma conclude_error_mask (mask mask' : SessionState) (s s' : Session)
      (reqID : string) (resp : bindResponse)
      (rw : option ReadWriter) (e : error) :
  conclude mask s reqID resp = Return mask' rw (Some e) s' -> mask' = mask.
Proof.
  unfold conclude.
  repeat match goal with
         | |- context [if ?x then _ else _] => destruct x
         end;
    intros R; inversion R; reflexivity.
Qed.

Lemma request_error_mask (mask mask' : SessionState) (s s' : Session)
      (rw : option ReadWriter) (e : error) :
  request mask s = Return mask' rw (Some e) s' -> mask' = mask.
Proof.
  unfold request.
  destruct (internal.RandomID (entropy s)) as [id r].
  destruct (Encode _ _) as [[x|] e1]; [intros R; inversion R; reflexivity|].
  destruct (Token _) as [[t|x] d]; [|intros R; inversion R; reflexivity].
  destruct t; try (intros R; inversion R; reflexivity).
  destruct (xml.Name_eqb _ _); [|intros R; inversion R; reflexivity].
  destruct (DecodeElement_response _ _) as [[resp|x] d'];
    [|intros R; inversion R; reflexivity].
  apply conclude_error_mask.
Qed.

(** C8: whenever [Negotiate] returns an error, in either role and with or
    without an assignment function, the flag delta it returns is zero (and
    it returns no stream). *)
Theorem Negotiate_error_has_no_flags :
  forall validate server (s s' : Session) (data : interface)
         (mask : SessionState) (rw : option ReadWriter) (e : error),
    Negotiate (BindCustom validate server) s data = Return mask rw (Some e) s' ->
    mask = 0 /\ rw = None.
Proof.
  intros validate server s s' data mask rw e. simpl Negotiate.
  unfold bind_Negotiate.
  destruct (Z.land (State s) Received =? Received).
  - destruct (assign validate server s data) as [[[j err] s1]|]; [|discriminate].
    destruct err as [x|].
    + intros R; inversion R; auto.
    + intros R. split; [exact (respond_error_mask _ _ _ _ _ _ _ R)|].
      revert R. unfold respond.
      repeat match goal with
             | |- context [match ?x with _ => _ end] => destruct x
             end;
        intros R; inversion R; reflexivity.
  - intros R. split; [exact (request_error_mask _ _ _ _ _ _ R)|].
    revert R. unfold request, conclude.
    repeat match goal with
           | |- context [match ?x with _ => _ end] => destruct x
           end;
      intros R; inversion R; reflexivity.
Qed.

(** A receiving session whose first write fails, and an initiating session
    whose peer answers under another identifier. *)
Lemma Negotiate_error_has_no_flags_witness :
  (exists mask rw e s',
      Negotiate (BindResource Sample.validate) (Sample.server Sample.failing)
                (of_string "home")
      = Return mask rw (Some e) s'
      /\ mask = 0 /\ rw = None)
  /\ (exists mask rw e s',
         Negotiate (BindCustom Sample.validate (Some Sample.assign_by_request))
                   Sample.crossed untyped_nil
         = Return mask rw (Some e) s'
         /\ mask = 0 /\ rw = None).
Proof.
  split.
  - do 4 eexists. split; [reflexivity|].
    eapply (Negotiate_error_has_no_flags
              Sample.validate None (Sample.server Sample.failing) _
              (of_string "home")).
    reflexivity.
  - do 4 eexists. split; [reflexivity|].
    eapply (Negotiate_error_has_no_flags
              Sample.validate (Some Sample.assign_by_request) Sample.crossed _
              untyped_nil).
    reflexivity.
Defined.

(** * Further properties of bind.go *)

(** ** Where the writes stop *)

(** X1: the error [List] returns is that of the first of its three encoder
    operations that fails (none when all succeed), and the operations after
    a failing one are not attempted. *)
Theorem List_stops_at_first_failure :
  forall validate server (e : Encoder) (start : xml.StartElement),
    let r := List (BindCustom validate server) e start in
    List_error r = first_fault 3 (faults e)
    /\ faults (List_encoder r) = skipn (attempted 3 (faults e)) (faults e).
Proof.
  intros validate server e start r. subst r. simpl List.
  unfold bind_List, List_error, List_encoder, EncodeToken, Flush, next_fault.
  destruct e as [b w fs]; simpl.
  destruct fs as [|[x|] [|[y|] [|[z|] fs]]]; simpl; split; reflexivity.
Qed.

(** What lines 68-77 leave of the session: everything but the entropy. *)
Lemma assign_frame validate (server : option ServerFunc) (s s1 : Session)
      (data : interface) (r : option jid.JID * option error) :
  assign validate server s data = done (r, s1) ->
  State s1 = State s /\ RemoteAddr s1 = RemoteAddr s
  /\ origin s1 = origin s /\ encoder s1 = encoder s /\ decoder s1 = decoder s.
Proof.
  unfold assign. destruct server as [f|].
  - destruct data; try discriminate.
    intros A; inversion A; subst. repeat split; reflexivity.
  - destruct (RemoteAddr s) eqn:Ra; [|discriminate].
    destruct (internal.RandomID (entropy s)) as [id en].
    intros A; inversion A; subst. simpl.
    repeat split; try reflexivity; assumption.
Qed.


(** X2: once the receiving role has its address, the error [Negotiate]
    returns is that of the first of its six encoder operations that fails
    (none when all succeed), with a zero flag delta, and the operations
    after a failing one are not attempted. *)
Theorem Negotiate_receiving_stops_at_first_failure :
  forall validate (server : option ServerFunc) (s s1 : Session)
         (data : interface) (j : jid.JID),
    receiving s ->
    assign validate server s data = done (Some j, None, s1) ->
    exists s',
      Negotiate (BindCustom validate server) s data
      = Return 0 None (first_fault 6 (faults (encoder s))) s'
      /\ faults (encoder s')
         = skipn (attempted 6 (faults (encoder s))) (faults (encoder s)).
Proof.
  intros validate server s s1 data j R A. unfold receiving in R.
  apply Z.eqb_eq in R. simpl Negotiate. unfold bind_Negotiate. rewrite R, A.
  apply assign_frame in A. destruct A as (_ & _ & _ & E & _). rewrite <- E.
  unfold respond, EncodeToken, Flush, next_fault.
  destruct (encoder s1) as [b w fs]; simpl.
  destruct fs as [|[x1|] [|[x2|] [|[x3|] [|[x4|] [|[x5|] [|[x6|] fs]]]]]];
    simpl; eexists; split; reflexivity.
Qed.

(** The third write of the sample receiving session fails. *)
Lemma Negotiate_receiving_stops_at_first_failure_witness :
  exists s',
    Negotiate (BindResource Sample.validate) (Sample.server Cases.third_fails)
              untyped_nil
    = Return 0 None (Some (other_error "broken pipe")) s'
    /\ faults (encoder s') = [None].
Proof.
  apply (Negotiate_receiving_stops_at_first_failure
           Sample.validate None (Sample.server Cases.third_fails)
           (set_entropy (Sample.server Cases.third_fails)
                        (after_draw Sample.ids))
           untyped_nil Sample.bound);
    reflexivity.
Defined.

(** ** What the receiving role leaves alone *)



(** ** The assignment *)

(** X4: in the receiving role a failing assignment ends [Negotiate] before
    anything is written.  Without an assignment function, an address that
    does not pass validation returns the validation error; with one, the
    error the function returns is returned, even beside an address.  In
    both cases the flag delta is zero and the encoder is untouched. *)
Theorem Negotiate_assignment_failure_writes_nothing :
  forall validate (s : Session),
    receiving s ->
    (forall data peer e,
        RemoteAddr s = Some peer ->
        validate (jid.Localpart peer) (jid.Domainpart peer) (next_id s) = Some e ->
        Negotiate (BindResource validate) s data
        = Return 0 None (Some e) (set_entropy s (after_draw (entropy s))))
    /\ (forall (f : ServerFunc) requested j e,
           f (RemoteAddr s) requested = (j, Some e) ->
           Negotiate (BindCustom validate (Some f)) s (of_string requested)
           = Return 0 None (Some e) s).
Proof.
  intros validate s R. unfold receiving in R. apply Z.eqb_eq in R.
  split.
  - intros data peer e P V. simpl Negotiate.
    unfold bind_Negotiate, assign, next_id, after_draw in *. rewrite R, P.
    destruct (internal.RandomID (entropy s)) as [id r]. simpl in *.
    unfold jid.New. rewrite V. reflexivity.
  - intros f requested j e F. simpl Negotiate.
    unfold bind_Negotiate, assign. rewrite R, F. reflexivity.
Qed.

(** A peer without domainpart, and an assignment function that refuses. *)
Lemma Negotiate_assignment_failure_writes_nothing_witness :
  Negotiate (BindResource Sample.validate) (Cases.stranger Sample.quiet)
            (of_string "home")
  = Return 0 None (Some (other_error "empty domainpart"))
           (set_entropy (Cases.stranger Sample.quiet) (after_draw Sample.ids))
  /\ Negotiate (BindCustom Sample.validate (Some Cases.refuse))
               (Sample.server Sample.quiet) (of_string "home")
     = Return 0 None (Some (other_error "conflict")) (Sample.server Sample.quiet).
Proof.
  split.
  - apply (Negotiate_assignment_failure_writes_nothing
             Sample.validate (Cases.stranger Sample.quiet) eq_refl)
      with (peer := Cases.nameless); reflexivity.
  - apply (Negotiate_assignment_failure_writes_nothing
             Sample.validate (Sample.server Sample.quiet) eq_refl)
      with (j := Some Sample.peer); reflexivity.
Defined.

(** X5: in the receiving role with an assignment function, a string as
    parsed data goes to the function with the remote address; when the
    function returns an address and no error and the six encoder operations
    succeed, [Negotiate] answers with the string form of exactly that
    address, flushes, draws no random identifier and returns a zero flag
    delta without error. *)
Theorem Negotiate_custom_answers_with_assigned_address :
  forall validate (f : ServerFunc) (s : Session) (requested : string) (j : jid.JID),
    receiving s ->
    f (RemoteAddr s) requested = (Some j, None) ->
    clear_for 6 (encoder s) ->
    Negotiate (BindCustom validate (Some f)) s (of_string requested)
    = Return 0 None None
        (set_encoder s
           {| buffered := [];
              wire := wire (encoder s) ++ buffered (encoder s)
                        ++ answer (jid.String j);
              faults := skipn 6 (faults (encoder s)) |}).
Proof.
  intros validate f s requested j R F C. unfold receiving in R.
  apply Z.eqb_eq in R. simpl Negotiate.
  unfold bind_Negotiate, assign. rewrite R, F.
  unfold clear_for in C.
  unfold respond, EncodeToken, Flush, next_fault, answer.
  destruct (encoder s) as [b w fs]; simpl in *.
  destruct fs as [|[x1|] [|[x2|] [|[x3|] [|[x4|] [|[x5|] [|[x6|] fs]]]]]];
    simpl in *; use_clear;
    rewrite <- ?app_assoc; reflexivity.
Qed.

(** An assignment function that grants the requested resource. *)
Lemma Negotiate_custom_answers_with_assigned_address_witness :
  Negotiate (BindCustom Sample.validate (Some Sample.assign_by_request))
            (Sample.server Sample.quiet) (of_string "home")
  = Return 0 None None
      (set_encoder (Sample.server Sample.quiet)
         {| buffered := [];
            wire := [] ++ [] ++ answer "user@example.com/home";
            faults := [] |}).
Proof.
  apply (Negotiate_custom_answers_with_assigned_address
           Sample.validate Sample.assign_by_request (Sample.server Sample.quiet)
           "home"
           {| jid.Localpart := "user"; jid.Domainpart := "example.com";
              jid.Resourcepart := "home" |});
    [ reflexivity | reflexivity | constructor ].
Defined.

(** ** The initiating role: request and failures *)

(** X6: on an initiating session an assignment function and the parsed data
    play no part: [BindCustom] negotiates as [BindResource] does, and both
    advertise and parse alike on every session. *)
Theorem BindCustom_is_BindResource_when_initiating :
  forall validate (server : option ServerFunc) (s : Session)
         (data data' : interface),
    initiating s ->
    Negotiate (BindCustom validate server) s data
    = Negotiate (BindResource validate) s data'
    /\ List (BindCustom validate server) = List (BindResource validate)
    /\ Parse (BindCustom validate server) = Parse (BindResource validate).
Proof.
  intros validate server s data data' I. unfold initiating in I.
  apply Z.eqb_neq in I.
  split; [|split; reflexivity].
  simpl Negotiate. unfold bind_Negotiate. rewrite I. reflexivity.
Qed.

(** The granted sample request, with and without an assignment function. *)
Lemma BindCustom_is_BindResource_when_initiating_witness :
  initiating Sample.granted
  /\ Negotiate (BindCustom Sample.validate (Some Cases.refuse)) Sample.granted
               (of_string "home")
     = Negotiate (BindResource Sample.validate) Sample.granted untyped_nil.
Proof.
  split; [discriminate|].
  apply (BindCustom_is_BindResource_when_initiating
           Sample.validate (Some Cases.refuse) Sample.granted
           (of_string "home") untyped_nil).
  discriminate.
Defined.

(** X7: in the initiating role, when the encoder takes the request,
    [Negotiate] returns (it does not panic) and, whatever the peer answers,
    the encoder has performed one operation: the wire has grown by what was
    buffered and one request of kind set that carries the generated
    identifier and the resourcepart of the configured origin, and nothing
    is left in the buffer. *)
Theorem Negotiate_initiating_sends_one_request :
  forall validate (server : option ServerFunc) (s : Session) (data : interface),
    initiating s ->
    next_fault (encoder s) = None ->
    exists mask rw err s',
      Negotiate (BindCustom validate server) s data = Return mask rw err s'
      /\ encoder s'
         = {| buffered := [];
              wire := wire (encoder s) ++ buffered (encoder s)
                        ++ [WValue
                              {| req_IQ := {| stanza.ID := next_id s;
                                              stanza.Type_ := stanza.SetIQ |};
                                 req_Resource :=
                                   jid.Resourcepart (Config_Origin s) |}];
              faults := tl (faults (encoder s)) |}.
Proof.
  intros validate server s data I F.
  rewrite (Negotiate_initiating_sends validate server s data I F).
  assert (E : forall d, encoder (set_decoder (after_request s) d)
                        = {| buffered := [];
                             wire := wire (encoder s) ++ buffered (encoder s)
                                       ++ [WValue (request_for s (next_id s))];
                             faults := tl (faults (encoder s)) |}).
  { intros d. unfold after_request, Encode. rewrite F. reflexivity. }
  unfold request_for in E.
  destruct (Token (decoder s)) as [[t|x] d].
  - destruct t as [start| | | | |];
      try (do 4 eexists; split; [reflexivity | apply E]).
    destruct (xml.Name_eqb (xml.SName start) iqName);
      [|do 4 eexists; split; [reflexivity | apply E]].
    destruct (DecodeElement_response d (Some start)) as [[resp|y] d'];
      [|do 4 eexists; split; [reflexivity | apply E]].
    unfold conclude.
    destruct (negb _);
      [do 4 eexists; split; [reflexivity | apply E]|].
    destruct (stanza.IQType_eqb _ stanza.ResultIQ);
      [do 4 eexists; split; [reflexivity | apply E]|].
    destruct (stanza.IQType_eqb _ stanza.ErrorIQ);
      do 4 eexists; (split; [reflexivity | apply E]).
  - do 4 eexists; split; [reflexivity | apply E].
Qed.

(** The sample session that wants ["home"]. *)
Lemma Negotiate_initiating_sends_one_request_witness :
  exists mask rw err s',
    Negotiate (BindResource Sample.validate)
              (Cases.wanting Sample.quiet Cases.echoed) untyped_nil
    = Return mask rw err s'
    /\ encoder s'
       = {| buffered := [];
            wire := [] ++ []
                      ++ [WValue {| req_IQ := {| stanza.ID := "3f9a04c1";
                                                 stanza.Type_ := stanza.SetIQ |};
                                    req_Resource := "home" |}];
            faults := [] |}.
Proof.
  apply (Negotiate_initiating_sends_one_request
           Sample.validate None (Cases.wanting Sample.quiet Cases.echoed)
           untyped_nil);
    [ discriminate | reflexivity ].
Defined.

(** X8: in the initiating role, when the encoder refuses the request,
    [Negotiate] returns the encoder's error with a zero flag delta; one
    identifier has been drawn, nothing has reached the wire, nothing has
    been read from the decoder and the session's local address is as it
    was. *)
Theorem Negotiate_request_failure_reads_nothing :
  forall validate (server : option ServerFunc) (s : Session) (data : interface)
         (e : error),
    initiating s ->
    next_fault (encoder s) = Some e ->
    Negotiate (BindCustom validate server) s data
    = Return 0 None (Some e)
        (set_encoder (set_entropy s (after_draw (entropy s)))
           {| buffered := buffered (encoder s);
              wire := wire (encoder s);
              faults := tl (faults (encoder s)) |}).
Proof.
  intros validate server s data e I F. unfold initiating in I.
  apply Z.eqb_neq in I. simpl Negotiate. unfold bind_Negotiate. rewrite I.
  unfold request, after_draw.
  destruct (internal.RandomID (entropy s)) as [id r]. simpl snd.
  unfold Encode. simpl encoder. rewrite F. reflexivity.
Qed.

(** The peer's answer is never read when the write fails. *)
Lemma Negotiate_request_failure_reads_nothing_witness :
  Negotiate (BindResource Sample.validate)
            (Cases.wanting Sample.failing Cases.echoed) untyped_nil
  = Return 0 None (Some (other_error "broken pipe"))
      (set_encoder
         (set_entropy (Cases.wanting Sample.failing Cases.echoed)
                      (after_draw Sample.ids))
         {| buffered := []; wire := []; faults := [] |}).
Proof.
  apply (Negotiate_request_failure_reads_nothing
           Sample.validate None (Cases.wanting Sample.failing Cases.echoed)
           untyped_nil (other_error "broken pipe"));
    [ discriminate | reflexivity ].
Defined.

(** X9: in the initiating role, once the request is encoded, an error of
    the decoder is returned as it is, with a zero flag delta and the local
    address untouched: both when the first token cannot be read and when the
    response envelope cannot be decoded. *)
Theorem Negotiate_returns_read_errors :
  forall validate (server : option ServerFunc) (s : Session) (data : interface),
    initiating s ->
    next_fault (encoder s) = None ->
    (forall e rest,
        input (decoder s) = Broken e :: rest ->
        Negotiate (BindCustom validate server) s data
        = Return 0 None (Some e) (left_to_read s rest))
    /\ (forall start c e rest,
           input (decoder s) = Tok (xml.StartElementTok start) :: Elem c :: rest ->
           xml.SName start = iqName ->
           into_response c = inr e ->
           Negotiate (BindCustom validate server) s data
           = Return 0 None (Some e) (left_to_read s rest))
    /\ forall rest, origin (left_to_read s rest) = origin s.
Proof.
  intros validate server s data I F.
  split; [|split; [|reflexivity]].
  - intros e rest In.
    rewrite (Negotiate_initiating_sends validate server s data I F).
    unfold Token. rewrite In. reflexivity.
  - intros start c e rest In Nm Dec.
    rewrite (Negotiate_initiating_sends validate server s data I F).
    unfold Token. rewrite In.
    apply Name_eqb_eq in Nm. rewrite Nm.
    unfold DecodeElement_response. cbn [input]. rewrite Dec. reflexivity.
Qed.

(** The peer's stream breaks off before the answer, and inside it. *)
Lemma Negotiate_returns_read_errors_witness :
  Negotiate (BindResource Sample.validate) (Sample.client Cases.cut_off) untyped_nil
  = Return 0 None (Some (other_error "connection reset"))
           (left_to_read (Sample.client Cases.cut_off) [])
  /\ Negotiate (BindResource Sample.validate) (Sample.client Cases.cut_inside)
               untyped_nil
     = Return 0 None (Some (other_error "unexpected EOF"))
              (left_to_read (Sample.client Cases.cut_inside) []).
Proof.
  split.
  - apply (Negotiate_returns_read_errors
             Sample.validate None (Sample.client Cases.cut_off) untyped_nil);
      [ discriminate | reflexivity | reflexivity ].
  - apply (Negotiate_returns_read_errors
             Sample.validate None (Sample.client Cases.cut_inside) untyped_nil)
      with (start := Sample.iq)
           (c := {| into_parsed := Some unexpected;
                    into_response := inr (other_error "unexpected EOF") |});
      [ discriminate | reflexivity | reflexivity | reflexivity | reflexivity ].
Defined.

(** X10: in the initiating role, a decoded response under the identifier
    generated for the request whose kind is neither result nor error makes
    [Negotiate] return a stanza error of its own with condition
    [bad-request] and no other detail, whatever error detail the response
    carried; the flag delta is zero and the local address untouched. *)
Theorem Negotiate_rejects_other_kinds :
  forall validate (server : option ServerFunc) (s : Session) (data : interface)
         (start : xml.StartElement) (c : Content) (resp : bindResponse)
         (rest : list Item),
    initiating s ->
    next_fault (encoder s) = None ->
    input (decoder s) = Tok (xml.StartElementTok start) :: Elem c :: rest ->
    xml.SName start = iqName ->
    into_response c = inl resp ->
    stanza.ID (resp_IQ resp) = next_id s ->
    stanza.Type_ (resp_IQ resp) <> stanza.ResultIQ ->
    stanza.Type_ (resp_IQ resp) <> stanza.ErrorIQ ->
    Negotiate (BindCustom validate server) s data
    = Return 0 None
        (Some (stanza_error {| stanza.ErrType := "";
                               stanza.Condition := "bad-request";
                               stanza.Text := "" |}))
        (left_to_read s rest)
    /\ origin (left_to_read s rest) = origin s.
Proof.
  intros validate server s data start c resp rest I F In Nm Dec Id NR NE.
  split; [|reflexivity].
  rewrite (Negotiate_initiating_sends validate server s data I F).
  unfold Token. rewrite In.
  apply Name_eqb_eq in Nm. rewrite Nm.
  unfold DecodeElement_response. cbn [input]. rewrite Dec.
  unfold conclude. apply String.eqb_eq in Id. rewrite Id.
  destruct (stanza.Type_ (resp_IQ resp)); try reflexivity; congruence.
Qed.

(** The peer answers the request with a request of kind set. *)
Lemma Negotiate_rejects_other_kinds_witness :
  Negotiate (BindResource Sample.validate) (Sample.client Cases.echoed) untyped_nil
  = Return 0 None
      (Some (stanza_error {| stanza.ErrType := "";
                             stanza.Condition := "bad-request";
                             stanza.Text := "" |}))
      (left_to_read (Sample.client Cases.echoed) [])
  /\ origin (left_to_read (Sample.client Cases.echoed) []) = None.
Proof.
  apply (Negotiate_rejects_other_kinds
           Sample.validate None (Sample.client Cases.echoed) untyped_nil
           Sample.iq
           (Sample.element (Sample.reply "3f9a04c1" stanza.SetIQ None
                                         Sample.no_error))
           (Sample.reply "3f9a04c1" stanza.SetIQ None Sample.no_error)
           []);
    [ discriminate | reflexivity | reflexivity | reflexivity | reflexivity
    | reflexivity | discriminate | discriminate ].
Defined.

(** ** What a return of the initiating role tells *)

(** X11: for every return of [Negotiate] in the initiating role no stream
    is returned, the state flags and the remote address of the session are
    as they were, and the flag delta is [Ready] exactly when there is no
    error; an error leaves the session's local address as it was. *)
Theorem Negotiate_initiating_ready_iff_no_error :
  forall validate (server : option ServerFunc) (s s' : Session)
         (data : interface) (mask : SessionState) (rw : option ReadWriter)
         (err : option error),
    initiating s ->
    Negotiate (BindCustom validate server) s data = Return mask rw err s' ->
    rw = None
    /\ State s' = State s /\ RemoteAddr s' = RemoteAddr s
    /\ (err = None <-> mask = Ready)
    /\ (mask = Ready \/ mask = 0)
    /\ (err <> None -> origin s' = origin s).
Proof.
  intros validate server s s' data mask rw err I. unfold initiating in I.
  apply Z.eqb_neq in I. simpl Negotiate. unfold bind_Negotiate. rewrite I.
  unfold request, conclude.
  repeat match goal with
         | |- context [match ?x with _ => _ end] => destruct x
         end;
    intros N; inversion N; subst; simpl;
    repeat split; auto; try discriminate; try congruence.
Qed.

(** The granted and the refused sample request. *)
Lemma Negotiate_initiating_ready_iff_no_error_witness :
  (Negotiate (BindResource Sample.validate) Sample.granted untyped_nil
   = Return Ready None None
            (set_origin (left_to_read Sample.granted []) (Some Sample.bound))
   /\ (@None error = None <-> Ready = Ready))
  /\ (Negotiate (BindResource Sample.validate) Sample.refused untyped_nil
      = Return 0 None (Some (stanza_error Sample.not_allowed))
               (left_to_read Sample.refused [])
      /\ (Some (stanza_error Sample.not_allowed) = None <-> 0 = Ready)).
Proof.
  split; (split; [reflexivity|]).
  - destruct (Negotiate_initiating_ready_iff_no_error
                Sample.validate None Sample.granted
                (set_origin (left_to_read Sample.granted []) (Some Sample.bound))
                untyped_nil Ready None None)
      as (_ & _ & _ & H & _); [discriminate | reflexivity | exact H].
  - destruct (Negotiate_initiating_ready_iff_no_error
                Sample.validate None Sample.refused
                (left_to_read Sample.refused [])
                untyped_nil 0 None (Some (stanza_error Sample.not_allowed)))
      as (_ & _ & _ & H & _); [discriminate | reflexivity | exact H].
Defined.

(** ** Random identifiers *)


